(** * TrainingDataAccumulator (src/src/data/accumulator.py)

    A shallow embedding of the training-data accumulator of the apartment
    rent pipeline.  A pandas DataFrame is modelled as its list of column
    names and its list of rows; a row is an association list from column
    name to cell, a column absent from a row reads as NaN (which is how
    [pd.concat] fills the columns one side lacks).  The two CSV files are
    the persistent store.  A file holds the CSV text of the frame [to_csv]
    rendered; the store keeps that frame, and [pd.read_csv] renders it to
    text and parses the text again, inferring each column's type (see
    [csv_read]).  Python exceptions are the [Raise] case of a small
    state-and-exception monad. *)

From Stdlib Require Import List Ascii String ZArith QArith Bool Lia.
From Stdlib Require Decimal DecimalString DecimalZ.
Import ListNotations.
Open Scope Z_scope.

(** ** Cells, rows and tables *)

Inductive value : Type :=
| VInt (z : Z)
| VStr (s : string).

Definition value_eqb (a b : value) : bool :=
  match a, b with
  | VInt x, VInt y => Z.eqb x y
  | VStr x, VStr y => String.eqb x y
  | _, _ => false
  end.

(** [None] is NaN. *)
Definition cell := option value.

(** [drop_duplicates] compares keys with NaN equal to NaN. *)
Definition cell_eqb (a b : cell) : bool :=
  match a, b with
  | Some x, Some y => value_eqb x y
  | None, None => true
  | _, _ => false
  end.

Definition row := list (string * cell).

Record table : Type := mk_table {
  columns : list string;
  rows : list row
}.

Definition str_mem (c : string) (cs : list string) : bool :=
  existsb (String.eqb c) cs.

(** [row[col]]: NaN when the row has no entry for the column. *)
Definition lookup (col : string) (r : row) : cell :=
  match find (fun kv => String.eqb (fst kv) col) r with
  | Some (_, v) => v
  | None => None
  end.

(** The deduplication key, [row['id']]. *)
Definition key (r : row) : cell := lookup "id" r.

Definition len (t : table) : Z := Z.of_nat (List.length (rows t)).

(** [df[cols]]: keep the given columns of every row. *)
Definition select_cols (cols : list string) (t : table) : table :=
  mk_table cols (map (filter (fun kv => str_mem (fst kv) cols)) (rows t)).

(** [pd.concat([a, b], ignore_index=True)]: union of the columns (those of
    [a] first), rows of [a] followed by rows of [b]. *)
Definition concat (a b : table) : table :=
  mk_table (columns a ++ filter (fun c => negb (str_mem c (columns a))) (columns b))
           (rows a ++ rows b).

(** [keep='last']: a row is kept iff no later row has the same key; the
    kept rows stay in their order. *)
Fixpoint dedup_last (rs : list row) : list row :=
  match rs with
  | [] => []
  | r :: rs' =>
      if existsb (fun r' => cell_eqb (key r) (key r')) rs'
      then dedup_last rs'
      else r :: dedup_last rs'
  end.

(** [DataFrame.empty]: no rows or no columns. *)
Definition empty (t : table) : bool :=
  Nat.eqb (List.length (columns t)) 0 || Nat.eqb (List.length (rows t)) 0.

(** [df.drop_duplicates(subset=['id'], keep='last')]: pandas returns an
    empty frame unchanged; otherwise a frame without an [id] column raises
    [KeyError] ([None] here). *)
Definition drop_duplicates_frame (t : table) : option table :=
  if empty t then Some t
  else if str_mem "id" (columns t)
  then Some (mk_table (columns t) (dedup_last (rows t)))
  else None.

(** ** CSV text

    [to_csv(index=False)] writes an integer in decimal, a string as it is
    and NaN as the empty field.  [pd.read_csv] turns the default NA texts
    of pandas into NaN and reads a column as integers when every other
    field of it is a decimal integer (optionally signed), and as strings
    otherwise.  Columns pandas reads as floats or booleans are kept as
    their text here, so the model compares such ids by their text; an
    integer column with NaN, which pandas reads as floats, keeps the same
    equalities between its values.  Surrounding whitespace, quoting and
    64-bit overflow are not modelled. *)

Definition render_int (z : Z) : string :=
  DecimalString.NilZero.string_of_int (Z.to_int z).

Definition int_text (s : string) : option Z :=
  match s with
  | String "+"%char rest => option_map Z.of_uint (DecimalString.NilZero.uint_of_string rest)
  | _ => option_map Z.of_int (DecimalString.NilZero.int_of_string s)
  end.

(** The default [na_values] of [pd.read_csv]. *)
Definition na_values : list string :=
  [""; "#N/A"; "#N/A N/A"; "#NA"; "-1.#IND"; "-1.#QNAN"; "-NaN"; "-nan";
   "1.#IND"; "1.#QNAN"; "<NA>"; "N/A"; "NA"; "NULL"; "NaN"; "None"; "n/a";
   "nan"; "null"]%string.

Definition is_na (s : string) : bool := str_mem s na_values.

Definition render (v : value) : string :=
  match v with VInt z => render_int z | VStr s => s end.

(** The text of a cell in the file. *)
Definition field (c : cell) : string :=
  match c with None => ""%string | Some v => render v end.

Definition int_like (s : string) : bool :=
  is_na s || match int_text s with Some _ => true | None => false end.

Definition column_fields (c : string) (t : table) : list string :=
  map (fun r => field (lookup c r)) (rows t).

Definition int_column (fs : list string) : bool := forallb int_like fs.

Definition parse_field (intcol : bool) (s : string) : cell :=
  if is_na s then None
  else if intcol then option_map VInt (int_text s)
  else Some (VStr s).

Definition read_cell (t : table) (c : string) (r : row) : cell :=
  parse_field (int_column (column_fields c t)) (field (lookup c r)).

(** A line of the file read back: one entry per column, in column order. *)
Definition csv_row (t : table) (r : row) : row :=
  map (fun c => (c, read_cell t c r)) (columns t).

(** [pd.read_csv] of the file [t.to_csv(index=False)] wrote. *)
Definition csv_read (t : table) : table :=
  mk_table (columns t) (map (csv_row t) (rows t)).

(** ** Persistent store and the exception monad *)

Inductive path : Type := BasePath | AccPath.

Record store : Type := mk_store {
  base_file : option table;
  acc_file : option table
}.

Inductive exn : Type :=
| FileNotFoundError (p : path)
| KeyError (k : string)
| ZeroDivisionError
| OSError.

Inductive result (A : Type) : Type :=
| Ok (a : A)
| Raise (e : exn).
Arguments Ok {A} a.
Arguments Raise {A} e.

Definition M (A : Type) : Type := store -> result A * store.

Definition ret {A} (a : A) : M A := fun s => (Ok a, s).

Definition bind {A B} (m : M A) (k : A -> M B) : M B :=
  fun s => match m s with
           | (Ok a, s') => k a s'
           | (Raise e, s') => (Raise e, s')
           end.

Notation "x <- m ;; k" := (bind m (fun x => k))
  (at level 61, m at next level, right associativity).
Notation "m ;;; k" := (bind m (fun _ => k))
  (at level 61, right associativity).

Definition raise {A} (e : exn) : M A := fun s => (Raise e, s).

(** [try: body except Exception: handler]. *)
Definition try_except {A} (body : M A) (handler : exn -> M A) : M A :=
  fun s => match body s with
           | (Ok a, s') => (Ok a, s')
           | (Raise e, s') => handler e s'
           end.

Definition get_file (p : path) (s : store) : option table :=
  match p with BasePath => base_file s | AccPath => acc_file s end.

(** [Path.exists()] *)
Definition path_exists (p : path) : M bool :=
  fun s => (Ok (match get_file p s with Some _ => true | None => false end), s).

(** [pd.read_csv(p)] *)
Definition read_csv (p : path) : M table :=
  fun s => match get_file p s with
           | Some t => (Ok (csv_read t), s)
           | None => (Raise (FileNotFoundError p), s)
           end.

(** [df.to_csv(p, index=False)]: the file now holds the text of [t]. *)
Definition to_csv (p : path) (t : table) : M unit :=
  fun s => (Ok tt, match p with
                   | BasePath => mk_store (Some t) (acc_file s)
                   | AccPath => mk_store (base_file s) (Some t)
                   end).


Definition drop_duplicates_id (t : table) : M table :=
  match drop_duplicates_frame t with
  | Some t' => ret t'
  | None => raise (KeyError "id")
  end.

(** Python's [/] on ints. *)
Definition py_div (a b : Z) : M Q :=
  if Z.eqb b 0 then raise ZeroDivisionError
  else ret (inject_Z a / inject_Z b)%Q.

(** ** The accumulator's methods *)

Definition prediction_cols : list string := ["price_preds"%string; "price_diff"%string].

Record merge_summary : Type := mk_summary {
  added_rows : Z;
  duplicates_removed : Z;
  final_size : Z
}.

(** The [try] block of [add_daily_predictions], with the file write
    [write] ([to_csv] in the program). *)
Definition add_daily_predictions_body_with (write : path -> table -> M unit)
    (daily_df : table) : M merge_summary :=
  ex <- path_exists AccPath ;;
  accumulated_df <- (if ex then read_csv AccPath else read_csv BasePath) ;;
  let training_cols :=
    filter (fun col => negb (str_mem col prediction_cols)) (columns daily_df) in
  let daily_training := select_cols training_cols daily_df in
  let combined_df := concat accumulated_df daily_training in
  deduplicated_df <- drop_duplicates_id combined_df ;;
  write AccPath deduplicated_df ;;;
  let added_rows := len daily_training in
  let final_rows := len deduplicated_df in
  let duplicates_removed := len combined_df - final_rows in
  ret (mk_summary added_rows duplicates_removed final_rows).


(** [except Exception as e: print(...); raise]. *)
Definition add_daily_predictions_with (write : path -> table -> M unit)
    (daily_df : table) : M merge_summary :=
  try_except (add_daily_predictions_body_with write daily_df) (fun e => raise e).

Definition add_daily_predictions (daily_df : table) : M merge_summary :=
  add_daily_predictions_with to_csv daily_df.

Definition reset_accumulated_data : M Z :=
  base_df <- read_csv BasePath ;;
  to_csv AccPath base_df ;;;
  ret (len base_df).

Record training_stats : Type := mk_stats {
  base_size : Z;
  accumulated_size : Z;
  growth : Z;
  growth_percentage : Q
}.

(** The [try] block of [get_training_stats]. *)
Definition get_training_stats_body : M (option training_stats) :=
  ex <- path_exists AccPath ;;
  if ex then
    accumulated_df <- read_csv AccPath ;;
    base_df <- read_csv BasePath ;;
    q <- py_div (len accumulated_df - len base_df) (len base_df) ;;
    ret (Some (mk_stats (len base_df) (len accumulated_df)
                        (len accumulated_df - len base_df)
                        (q * inject_Z 100)%Q))
  else ret None.

(** [except Exception as e: print(...); return None]. *)
Definition get_training_stats : M (option training_stats) :=
  try_except get_training_stats_body (fun _ => ret None).

(** ** Derived notions used in the statements *)

(** The table [add_daily_predictions] loads: the accumulated file if it
    exists, else the base file, as [pd.read_csv] reads it. *)
Definition loaded (s : store) : option table :=
  match acc_file s with
  | Some a => Some (csv_read a)
  | None => option_map csv_read (base_file s)
  end.

(** [training_cols] and [daily_training] of [add_daily_predictions]. *)
Definition training_cols (d : table) : list string :=
  filter (fun col => negb (str_mem col prediction_cols)) (columns d).

Definition daily_training (d : table) : table :=
  select_cols (training_cols d) d.

(** An incoming row as it reaches the concatenation. *)
Definition strip_row (d : table) (r : row) : row :=
  filter (fun kv => str_mem (fst kv) (training_cols d)) r.

(** The frame [drop_duplicates] returns when it does not raise. *)
Definition dedup_frame (t : table) : table :=
  if empty t then t else mk_table (columns t) (dedup_last (rows t)).

(** The table [add_daily_predictions] writes when it completes. *)
Definition merged (a d : table) : table :=
  dedup_frame (concat a (daily_training d)).

Definition ids_unique (t : table) : Prop := NoDup (map key (rows t)).


(** ** Scenario A of the specification *)

Definition row_of (id price : Z) : row :=
  [("id"%string, Some (VInt id)); ("price"%string, Some (VInt price))].

Definition scenario_a_base : table :=
  mk_table ["id"%string; "price"%string] [row_of 1 1000; row_of 2 1200].

Definition scenario_a_daily : table :=
  mk_table ["id"%string; "price"%string; "price_preds"%string]
    [row_of 2 1250 ++ [("price_preds"%string, Some (VInt 1230))];
     row_of 3 900 ++ [("price_preds"%string, None)]].

Example scenario_a :
  add_daily_predictions scenario_a_daily (mk_store (Some scenario_a_base) None)
  = (Ok (mk_summary 2 1 3),
     mk_store (Some scenario_a_base)
       (Some (mk_table ["id"%string; "price"%string]
                [row_of 1 1000; row_of 2 1250; row_of 3 900]))).
Proof. reflexivity. Qed.

(** ** Lemmas on the model *)

Lemma value_eqb_eq (a b : value) : value_eqb a b = true <-> a = b.
Proof.
  destruct a, b; simpl; split; intro H; try discriminate.
  - apply Z.eqb_eq in H; now subst.
  - inversion H; apply Z.eqb_refl.
  - apply String.eqb_eq in H; now subst.
  - inversion H; apply String.eqb_refl.
Qed.

Lemma cell_eqb_eq (a b : cell) : cell_eqb a b = true <-> a = b.
Proof.
  destruct a as [x|], b as [y|]; simpl; split; intro H; try discriminate; auto.
  - apply value_eqb_eq in H; now subst.
  - inversion H; now apply value_eqb_eq.
Qed.

Lemma str_mem_In (c : string) (cs : list string) :
  str_mem c cs = true <-> In c cs.
Proof.
  unfold str_mem; rewrite existsb_exists; split.
  - intros [x [Hx Hc]]; apply String.eqb_eq in Hc; now subst.
  - intro H; exists c; split; auto; apply String.eqb_refl.
Qed.

Lemma str_mem_nonnil (c : string) (cs : list string) :
  str_mem c cs = true -> cs <> [].
Proof. intros H ->; discriminate. Qed.

Lemma existsb_key_iff (r : row) (rs : list row) :
  existsb (fun r' => cell_eqb (key r) (key r')) rs = true <->
  In (key r) (map key rs).
Proof.
  rewrite existsb_exists, in_map_iff; split.
  - intros [r' [Hin Heq]]; apply cell_eqb_eq in Heq; eauto.
  - intros [r' [Heq Hin]]; exists r'; split; auto; apply cell_eqb_eq; auto.
Qed.

Lemma dedup_last_incl (rs : list row) (r : row) :
  In r (dedup_last rs) -> In r rs.
Proof.
  induction rs as [|x rs IH]; simpl; auto.
  destruct (existsb _ rs); simpl; intuition.
Qed.

Lemma dedup_last_keys_incl (rs : list row) (k : cell) :
  In k (map key (dedup_last rs)) -> In k (map key rs).
Proof.
  rewrite !in_map_iff; intros [r [Hk Hin]]; exists r; split; auto.
  now apply dedup_last_incl.
Qed.

Lemma dedup_last_nodup (rs : list row) : NoDup (map key (dedup_last rs)).
Proof.
  induction rs as [|x rs IH]; simpl; [constructor|].
  destruct (existsb _ rs) eqn:E; auto.
  simpl; constructor; auto.
  intro Hin; apply dedup_last_keys_incl in Hin.
  apply existsb_key_iff in Hin; congruence.
Qed.

Lemma dedup_last_length (rs : list row) :
  (List.length (dedup_last rs) <= List.length rs)%nat.
Proof.
  induction rs as [|x rs IH]; simpl; auto.
  destruct (existsb _ rs); simpl; lia.
Qed.

(** A row no later row shares a key with survives deduplication. *)
Lemma dedup_last_keeps (l1 l2 : list row) (r : row) :
  ~ In (key r) (map key l2) -> In r (dedup_last (l1 ++ r :: l2)).
Proof.
  intro Hn; induction l1 as [|x l1 IH]; simpl.
  - destruct (existsb _ l2) eqn:E.
    + apply existsb_key_iff in E; contradiction.
    + now left.
  - destruct (existsb _ _); simpl; auto.
Qed.

Lemma dedup_last_id (rs : list row) :
  NoDup (map key rs) -> dedup_last rs = rs.
Proof.
  induction rs as [|x rs IH]; simpl; auto.
  intro H; inversion H; subst.
  destruct (existsb _ rs) eqn:E.
  - apply existsb_key_iff in E; contradiction.
  - f_equal; auto.
Qed.

(** *** The deduplicated frame *)

Lemma drop_duplicates_frame_eq (t : table) :
  drop_duplicates_frame t =
  if empty t || str_mem "id" (columns t) then Some (dedup_frame t) else None.
Proof.
  unfold drop_duplicates_frame, dedup_frame.
  destruct (empty t); simpl; [reflexivity|].
  destruct (str_mem "id" (columns t)); reflexivity.
Qed.

Lemma columns_dedup_frame (t : table) : columns (dedup_frame t) = columns t.
Proof. unfold dedup_frame; destruct (empty t); reflexivity. Qed.

Lemma dedup_frame_nonnil (t : table) :
  columns t <> [] -> dedup_frame t = mk_table (columns t) (dedup_last (rows t)).
Proof.
  destruct t as [[|c cs] [|r rs]]; cbn [columns rows]; intro H;
    [congruence|congruence|reflexivity|reflexivity].
Qed.

Lemma rows_dedup_frame_cases (t : table) :
  rows (dedup_frame t) = dedup_last (rows t) \/
  (columns t = [] /\ rows (dedup_frame t) = rows t).
Proof.
  destruct (columns t) as [|c cs] eqn:E.
  - right; split; [reflexivity|]; unfold dedup_frame, empty; rewrite E; reflexivity.
  - left; rewrite dedup_frame_nonnil by congruence; reflexivity.
Qed.

Lemma dedup_frame_incl (t : table) (r : row) :
  In r (rows (dedup_frame t)) -> In r (rows t).
Proof.
  destruct (rows_dedup_frame_cases t) as [->|[_ ->]]; auto using dedup_last_incl.
Qed.

Lemma dedup_frame_length (t : table) :
  (List.length (rows (dedup_frame t)) <= List.length (rows t))%nat.
Proof.
  destruct (rows_dedup_frame_cases t) as [->|[_ ->]]; auto using dedup_last_length.
Qed.

(** *** CSV round trip *)

Lemma int_text_render (z : Z) : int_text (render_int z) = Some z.
Proof.
  unfold render_int; rewrite <- (DecimalZ.of_to z) at 2.
  destruct (Z.to_int z) as [u|u]; destruct u; try reflexivity;
  unfold int_text;
  (rewrite DecimalString.NilZero.isi; [reflexivity|discriminate|discriminate]).
Qed.

Lemma is_na_render_int (z : Z) : is_na (render_int z) = false.
Proof.
  destruct (is_na (render_int z)) eqn:E; [|reflexivity].
  unfold is_na, str_mem in E; apply existsb_exists in E as [s [Hs Heq]].
  apply String.eqb_eq in Heq; pose proof (int_text_render z) as H; rewrite Heq in H.
  simpl in Hs; repeat destruct Hs as [<-|Hs]; try discriminate; destruct Hs.
Qed.

Lemma lookup_tabulate (f : string -> cell) (cols : list string) (c : string) :
  lookup c (map (fun c' => (c', f c')) cols) = if str_mem c cols then f c else None.
Proof.
  unfold lookup, str_mem; induction cols as [|c' cols IH]; simpl; auto.
  destruct (String.eqb c' c) eqn:E.
  - apply String.eqb_eq in E; subst; now rewrite String.eqb_refl.
  - rewrite String.eqb_sym, E; simpl; exact IH.
Qed.

Lemma len_csv_read (t : table) : len (csv_read t) = len t.
Proof. unfold len, csv_read; cbn [rows]; now rewrite length_map. Qed.

Lemma columns_csv_read (t : table) : columns (csv_read t) = columns t.
Proof. reflexivity. Qed.

(** Parsing the text of a parsed field gives the same cell. *)
Lemma parse_field_again (ic : bool) (s : string) :
  (ic = true -> int_like s = true) ->
  parse_field ic (field (parse_field ic s)) = parse_field ic s.
Proof.
  intro H; unfold parse_field at 2 3.
  destruct (is_na s) eqn:Ena; [reflexivity|].
  destruct ic.
  - specialize (H eq_refl); unfold int_like in H; rewrite Ena in H; simpl in H.
    destruct (int_text s) as [z|] eqn:Ez; [|discriminate]; simpl.
    unfold parse_field; rewrite is_na_render_int, int_text_render; reflexivity.
  - simpl; unfold parse_field; rewrite Ena; reflexivity.
Qed.

(** A column keeps its inferred type when read a second time. *)
Lemma int_column_again (ic : bool) (fs : list string) :
  int_column fs = ic ->
  int_column (map (fun s => field (parse_field ic s)) fs) = ic.
Proof.
  unfold int_column; intro H; destruct ic.
  - apply forallb_forall; intros x Hx; apply in_map_iff in Hx as [s [<- Hs]].
    rewrite forallb_forall in H; specialize (H s Hs).
    unfold parse_field; destruct (is_na s) eqn:Ena; [reflexivity|].
    unfold int_like in H; rewrite Ena in H; simpl in H.
    destruct (int_text s) as [z|]; [|discriminate]; simpl.
    unfold int_like; rewrite int_text_render, orb_true_r; reflexivity.
  - transitivity (forallb int_like fs); [|exact H]; clear H; induction fs as [|s fs IH];
      simpl; auto.
    rewrite IH; f_equal.
    unfold parse_field; destruct (is_na s) eqn:Ena; [|reflexivity].
    unfold int_like; rewrite Ena; reflexivity.
Qed.

(** Writing a table read from a CSV file and reading it again gives the
    same table. *)
Lemma csv_read_idem (t : table) : csv_read (csv_read t) = csv_read t.
Proof.
  unfold csv_read at 1 3; cbn [columns rows]; f_equal.
  change (rows (csv_read t)) with (map (csv_row t) (rows t)).
  rewrite map_map; apply map_ext_in; intros r Hr.
  unfold csv_row at 1 2; change (columns (csv_read t)) with (columns t).
  apply map_ext_in; intros c Hc; f_equal.
  assert (Hm : str_mem c (columns t) = true) by now apply str_mem_In.
  set (ic := int_column (column_fields c t)).
  assert (Hf : column_fields c (csv_read t)
               = map (fun s => field (parse_field ic s)) (column_fields c t)).
  { unfold column_fields, csv_read; cbn [rows]; rewrite !map_map; apply map_ext; intro r'.
    unfold csv_row; rewrite lookup_tabulate, Hm; reflexivity. }
  unfold read_cell at 1; rewrite Hf, (int_column_again ic) by reflexivity.
  unfold csv_row; rewrite lookup_tabulate, Hm.
  unfold read_cell; fold ic; apply parse_field_again.
  intro Hic; unfold ic, int_column in Hic; rewrite forallb_forall in Hic.
  apply Hic; unfold column_fields; apply in_map_iff; eauto.
Qed.

(** Integer ids are read back unchanged. *)
Lemma key_csv_row (t : table) (r : row) :
  str_mem "id" (columns t) = true ->
  (forall r', In r' (rows t) -> exists z, key r' = Some (VInt z)) ->
  In r (rows t) -> key (csv_row t r) = key r.
Proof.
  intros Hid Hint Hr; unfold key, csv_row; rewrite lookup_tabulate, Hid.
  unfold read_cell.
  replace (int_column (column_fields "id" t)) with true.
  - destruct (Hint r Hr) as [z Hz]; unfold key in Hz; rewrite Hz; cbn [field render].
    unfold parse_field; rewrite is_na_render_int, int_text_render; reflexivity.
  - symmetry; unfold int_column; apply forallb_forall; intros x Hx.
    unfold column_fields in Hx; apply in_map_iff in Hx as [r' [<- Hr']].
    destruct (Hint r' Hr') as [z Hz]; unfold key in Hz; rewrite Hz; cbn [field render].
    unfold int_like; rewrite int_text_render, orb_true_r; reflexivity.
Qed.

Lemma ids_unique_csv_read (t : table) :
  str_mem "id" (columns t) = true ->
  (forall r, In r (rows t) -> exists z, key r = Some (VInt z)) ->
  ids_unique t -> ids_unique (csv_read t).
Proof.
  intros Hid Hint Hu; unfold ids_unique, csv_read; cbn [rows].
  rewrite map_map, (map_ext_in _ key); [exact Hu|].
  intros r Hr; now apply key_csv_row.
Qed.

(** *** The closed form of a merge *)

Lemma add_daily_predictions_eq (d : table) (s : store) :
  add_daily_predictions d s =
  match loaded s with
  | None => (Raise (FileNotFoundError BasePath), s)
  | Some a =>
      if empty (concat a (daily_training d))
         || str_mem "id" (columns (concat a (daily_training d)))
      then (Ok (mk_summary (len (daily_training d))
                           (len (concat a (daily_training d)) - len (merged a d))
                           (len (merged a d))),
            mk_store (base_file s) (Some (merged a d)))
      else (Raise (KeyError "id"), s)
  end.
Proof.
  destruct s as [b [a|]]; unfold loaded; cbn [acc_file base_file option_map].
  - unfold add_daily_predictions, add_daily_predictions_with,
      add_daily_predictions_body_with, try_except, bind,
      path_exists, read_csv, drop_duplicates_id; cbn [get_file acc_file].
    rewrite drop_duplicates_frame_eq.
    destruct (_ || _); reflexivity.
  - unfold add_daily_predictions, add_daily_predictions_with,
      add_daily_predictions_body_with, try_except, bind,
      path_exists, read_csv, drop_duplicates_id; cbn [get_file acc_file base_file].
    destruct b as [b|]; cbn [option_map]; [|reflexivity].
    rewrite drop_duplicates_frame_eq.
    destruct (_ || _); reflexivity.
Qed.


Lemma lookup_filter (c : string) (p : string * cell -> bool) (r : row) :
  (forall v, p (c, v) = true) -> lookup c (filter p r) = lookup c r.
Proof.
  intro Hp; unfold lookup; induction r as [|[k v] r IH]; simpl; auto.
  destruct (String.eqb k c) eqn:E.
  - apply String.eqb_eq in E; subst; rewrite Hp; simpl; now rewrite String.eqb_refl.
  - destruct (p (k, v)); simpl; [rewrite E|]; auto.
Qed.

Lemma lookup_filter_none (c : string) (p : string * cell -> bool) (r : row) :
  (forall v, p (c, v) = false) -> lookup c (filter p r) = None.
Proof.
  intro Hp; unfold lookup; induction r as [|[k v] r IH]; simpl; auto.
  destruct (p (k, v)) eqn:E; simpl; auto.
  destruct (String.eqb k c) eqn:Ek; auto.
  apply String.eqb_eq in Ek; subst; rewrite Hp in E; discriminate.
Qed.

Lemma id_training_col (d : table) :
  str_mem "id" (columns d) = true -> str_mem "id" (training_cols d) = true.
Proof.
  unfold training_cols, str_mem; intro H.
  apply existsb_exists in H as [c [Hin Hc]]; apply String.eqb_eq in Hc; subst.
  apply existsb_exists; exists "id"%string; split; [|apply String.eqb_refl].
  apply filter_In; split; auto.
Qed.

Lemma training_cols_incl (d : table) (c : string) :
  str_mem c (training_cols d) = true -> str_mem c (columns d) = true.
Proof.
  unfold str_mem, training_cols; rewrite !existsb_exists.
  intros [x [Hin Hx]]; apply filter_In in Hin as [Hin _]; eauto.
Qed.

Lemma key_strip_row (d : table) (r : row) :
  str_mem "id" (columns d) = true -> key (strip_row d r) = key r.
Proof.
  intro H; unfold key, strip_row; apply lookup_filter; intros v; simpl.
  now apply id_training_col.
Qed.

Lemma key_strip_row_no_id (d : table) (r : row) :
  str_mem "id" (columns d) = false -> key (strip_row d r) = None.
Proof.
  intro H; unfold key, strip_row; apply lookup_filter_none; intro v; cbn [fst].
  destruct (str_mem "id" (training_cols d)) eqn:E; auto.
  apply training_cols_incl in E; congruence.
Qed.

Lemma rows_daily_training (d : table) :
  rows (daily_training d) = map (strip_row d) (rows d).
Proof. reflexivity. Qed.

Lemma str_mem_concat_daily (a d : table) (c : string) :
  str_mem c (columns (concat a (daily_training d))) =
  str_mem c (columns a) || str_mem c (training_cols d).
Proof.
  unfold concat, str_mem; cbn [columns]; rewrite existsb_app.
  destruct (existsb (String.eqb c) (columns a)) eqn:Ea; auto; simpl.
  apply Bool.eq_iff_eq_true; rewrite !existsb_exists; split.
  - intros [x [Hin Hx]]; apply filter_In in Hin as [Hin _]; eauto.
  - intros [x [Hin Hx]]; exists x; split; auto; apply filter_In; split; auto.
    apply String.eqb_eq in Hx; subst; now rewrite Ea.
Qed.

Lemma str_mem_concat_id (a d : table) :
  str_mem "id" (columns d) = true ->
  str_mem "id" (columns (concat a (daily_training d))) = true.
Proof.
  intro H; rewrite str_mem_concat_daily, id_training_col by exact H.
  apply orb_true_r.
Qed.


Lemma pred_col_not_training (d : table) (c : string) :
  In c prediction_cols -> ~ In c (training_cols d).
Proof.
  intros Hc Hin; unfold training_cols in Hin; apply filter_In in Hin as [_ Hf].
  apply str_mem_In in Hc; rewrite Hc in Hf; discriminate.
Qed.

(** The columns of the written table. *)
Lemma columns_merged_iff (a d : table) (c : string) :
  In c (columns (merged a d)) <->
  In c (columns a) \/ (In c (columns d) /\ ~ In c prediction_cols).
Proof.
  assert (Htc : In c (training_cols d) <-> In c (columns d) /\ ~ In c prediction_cols).
  { unfold training_cols; rewrite filter_In, Bool.negb_true_iff, <- (str_mem_In c prediction_cols).
    rewrite Bool.not_true_iff_false; reflexivity. }
  unfold merged; rewrite columns_dedup_frame; unfold concat; cbn [columns].
  rewrite in_app_iff, filter_In; split.
  - intros [H|[H _]]; [now left|right; now apply Htc].
  - intros [H|H]; [now left|].
    destruct (str_mem c (columns a)) eqn:E; [left; now apply str_mem_In|].
    right; split; [now apply Htc|reflexivity].
Qed.

Lemma merged_pred_cols (a d : table) (c : string) :
  In c prediction_cols -> (In c (columns (merged a d)) <-> In c (columns a)).
Proof. intro Hc; rewrite columns_merged_iff; tauto. Qed.

Lemma merged_id (a d : table) :
  str_mem "id" (columns (concat a (daily_training d))) = true ->
  merged a d = mk_table (columns (concat a (daily_training d)))
                        (dedup_last (rows (concat a (daily_training d)))).
Proof. intro H; apply dedup_frame_nonnil; exact (str_mem_nonnil _ _ H). Qed.

Lemma merged_unique (a d : table) :
  str_mem "id" (columns (concat a (daily_training d))) = true -> ids_unique (merged a d).
Proof. intro H; rewrite (merged_id a d H); apply dedup_last_nodup. Qed.

Lemma add_daily_predictions_ok (d : table) (s s' : store) (sm : merge_summary) :
  add_daily_predictions d s = (Ok sm, s') ->
  exists a, loaded s = Some a /\
    empty (concat a (daily_training d))
      || str_mem "id" (columns (concat a (daily_training d))) = true /\
    s' = mk_store (base_file s) (Some (merged a d)) /\
    sm = mk_summary (len (daily_training d))
                    (len (concat a (daily_training d)) - len (merged a d))
                    (len (merged a d)).
Proof.
  rewrite add_daily_predictions_eq.
  destruct (loaded s) as [a|]; [|congruence].
  destruct (_ || _) eqn:E; [|congruence].
  intro H; inversion H; subst; eauto.
Qed.



Lemma get_training_stats_no_write (s : store) :
  exists o, get_training_stats s = (Ok o, s).
Proof.
  destruct s as [b [a|]]; unfold get_training_stats, get_training_stats_body, try_except,
    bind, path_exists, read_csv, py_div, ret, raise; cbn [get_file acc_file base_file];
    [|eauto].
  destruct b as [b|]; [|eauto].
  destruct (Z.eqb _ 0); eauto.
Qed.

Lemma stats_unfold (s : store) (a : table) :
  acc_file s = Some a ->
  get_training_stats s =
  match base_file s with
  | None => (Ok None, s)
  | Some b =>
      if Z.eqb (len b) 0 then (Ok None, s)
      else (Ok (Some (mk_stats (len b) (len a) (len a - len b)
                        (inject_Z (len a - len b) / inject_Z (len b) * inject_Z 100)%Q)), s)
  end.
Proof.
  destruct s as [b a0]; cbn [acc_file base_file]; intros ->.
  unfold get_training_stats, get_training_stats_body, try_except, bind, path_exists,
    read_csv, py_div, ret, raise; cbn [get_file acc_file base_file].
  destruct b as [b|]; [|reflexivity].
  rewrite !len_csv_read.
  destruct (Z.eqb (len b) 0); reflexivity.
Qed.


(** ** The claims *)

(** C1 — last write wins: when the incoming frame has an [id] column and
    contains a record [r] with id [x] that no later incoming record shares,
    while the accumulated table already holds a record with id [x], the
    merge completes and the written table holds [r] (its training columns)
    as the one and only record with id [x]. *)
Theorem merge_last_write_wins (s : store) (a d : table) (r1 r : row)
    (l1 l2 : list row) (x : cell) :
  acc_file s = Some a -> In r1 (rows a) -> key r1 = x ->
  str_mem "id" (columns d) = true ->
  rows d = l1 ++ r :: l2 -> key r = x -> ~ In x (map key l2) ->
  exists sm t',
    add_daily_predictions d s = (Ok sm, mk_store (base_file s) (Some t')) /\
    In (strip_row d r) (rows t') /\
    (forall r', In r' (rows t') -> key r' = x -> r' = strip_row d r).
Proof.
  intros Ha _ _ Hid Hd Hr Hn.
  rewrite add_daily_predictions_eq; unfold loaded; rewrite Ha.
  set (a' := csv_read a).
  pose proof (str_mem_concat_id a' d Hid) as Hc.
  rewrite Hc, orb_true_r.
  eexists; exists (merged a' d); split; [reflexivity|].
  assert (Hin : In (strip_row d r) (rows (merged a' d))).
  { rewrite (merged_id a' d Hc); unfold concat; cbn [rows].
    rewrite rows_daily_training, Hd, map_app; simpl.
    rewrite app_assoc; apply dedup_last_keeps.
    rewrite map_map, (map_ext_in _ key); [|intros y _; now apply key_strip_row].
    now rewrite key_strip_row, Hr. }
  split; auto.
  intros r' Hin' Hk.
  pose proof (merged_unique a' d Hc) as Hnd; unfold ids_unique in Hnd.
  destruct (In_split _ _ Hin) as [m1 [m2 Hm]].
  rewrite Hm in Hin', Hnd; rewrite map_app in Hnd; simpl in Hnd.
  apply NoDup_remove_2 in Hnd.
  apply in_app_or in Hin' as [H'|[H'|H']]; auto;
    exfalso; apply Hnd; rewrite key_strip_row, Hr by auto; rewrite <- Hk;
    apply in_or_app; [left|right]; now apply in_map.
Qed.

Lemma merge_last_write_wins_witness :
  exists sm t',
    add_daily_predictions scenario_a_daily
      (mk_store (Some scenario_a_base) (Some scenario_a_base))
    = (Ok sm, mk_store (Some scenario_a_base) (Some t')) /\
    In (strip_row scenario_a_daily (row_of 2 1250 ++ [("price_preds"%string, Some (VInt 1230))])) (rows t') /\
    (forall r', In r' (rows t') -> key r' = Some (VInt 2) ->
       r' = strip_row scenario_a_daily (row_of 2 1250 ++ [("price_preds"%string, Some (VInt 1230))])).
Proof.
  apply (merge_last_write_wins
           (mk_store (Some scenario_a_base) (Some scenario_a_base))
           scenario_a_base scenario_a_daily (row_of 2 1200)
           (row_of 2 1250 ++ [("price_preds"%string, Some (VInt 1230))]) []
           [row_of 3 900 ++ [("price_preds"%string, None)]] (Some (VInt 2)));
    simpl; try reflexivity.
  - right; left; reflexivity.
  - intros [H|H]; [discriminate|exact H].
Defined.





(** C3 — summary arithmetic: a completed merge reports
    [final_size = previous size + added_rows - duplicates_removed], where the
    previous size is that of the loaded table, [added_rows] counts the
    incoming rows after column stripping, [duplicates_removed] is the
    concatenated size minus the written size, and [final_size] is the
    written size. *)
Theorem merge_summary_arithmetic (d : table) (s s' : store) (sm : merge_summary) :
  add_daily_predictions d s = (Ok sm, s') ->
  exists a t,
    loaded s = Some a /\ acc_file s' = Some t /\
    added_rows sm = len (daily_training d) /\
    duplicates_removed sm = len (concat a (daily_training d)) - len t /\
    final_size sm = len t /\
    final_size sm = len a + added_rows sm - duplicates_removed sm /\
    0 <= duplicates_removed sm.
Proof.
  intro H; apply add_daily_predictions_ok in H as [a [Ha [_ [-> ->]]]].
  exists a, (merged a d); cbn [acc_file added_rows duplicates_removed final_size].
  pose proof (dedup_frame_length (concat a (daily_training d))) as Hle.
  assert (Hc : len (concat a (daily_training d)) = len a + len (daily_training d)).
  { unfold len, concat; cbn [rows]; rewrite length_app; lia. }
  assert (Hm : len (merged a d) <= len (concat a (daily_training d))).
  { unfold len, merged; lia. }
  repeat split; auto; lia.
Qed.

Lemma merge_summary_arithmetic_witness :
  exists a t,
    loaded (mk_store (Some scenario_a_base) None) = Some a /\
    acc_file (snd (add_daily_predictions scenario_a_daily
                     (mk_store (Some scenario_a_base) None))) = Some t /\
    added_rows (mk_summary 2 1 3) = len (daily_training scenario_a_daily) /\
    duplicates_removed (mk_summary 2 1 3)
      = len (concat a (daily_training scenario_a_daily)) - len t /\
    final_size (mk_summary 2 1 3) = len t /\
    final_size (mk_summary 2 1 3)
      = len a + added_rows (mk_summary 2 1 3) - duplicates_removed (mk_summary 2 1 3) /\
    0 <= duplicates_removed (mk_summary 2 1 3).
Proof.
  apply (merge_summary_arithmetic scenario_a_daily
           (mk_store (Some scenario_a_base) None)); reflexivity.
Defined.

(** C4 (amended) — prediction columns: a completed merge drops exactly the
    columns [price_preds] and [price_diff] of the incoming frame and keeps
    its other columns (such as [predicted_price]): the written table's
    columns are those of the loaded table and the other incoming columns.
    So it has a [price_preds] or [price_diff] column exactly when the
    loaded accumulated (or base) table has one. *)
Theorem merge_strips_prediction_cols (d : table) (s s' : store) (sm : merge_summary) :
  add_daily_predictions d s = (Ok sm, s') ->
  exists a t, loaded s = Some a /\ acc_file s' = Some t /\
    (forall c, In c (columns t) <->
       In c (columns a) \/ (In c (columns d) /\ ~ In c prediction_cols)) /\
    (forall c, In c prediction_cols -> (In c (columns t) <-> In c (columns a))).
Proof.
  intro H; apply add_daily_predictions_ok in H as [a [Ha [_ [-> _]]]].
  exists a, (merged a d); split; [exact Ha|split; [reflexivity|split]].
  - intro c; apply columns_merged_iff.
  - intros c Hc; now apply merged_pred_cols.
Qed.

Definition pred_daily : table :=
  mk_table ["id"%string; "price"%string; "predicted_price"%string; "price_diff"%string]
    [row_of 4 1500 ++ [("predicted_price"%string, Some (VInt 1480));
                       ("price_diff"%string, Some (VInt 20))]].

Lemma merge_strips_prediction_cols_witness :
  exists a t, loaded (mk_store (Some scenario_a_base) None) = Some a /\
    acc_file (snd (add_daily_predictions pred_daily
                     (mk_store (Some scenario_a_base) None))) = Some t /\
    (forall c, In c (columns t) <->
       In c (columns a) \/ (In c (columns pred_daily) /\ ~ In c prediction_cols)) /\
    (forall c, In c prediction_cols -> (In c (columns t) <-> In c (columns a))).
Proof.
  apply (merge_strips_prediction_cols pred_daily
           (mk_store (Some scenario_a_base) None)
           (snd (add_daily_predictions pred_daily (mk_store (Some scenario_a_base) None)))
           (mk_summary 1 0 3)); reflexivity.
Defined.

(** C4 as stated fails: an incoming [predicted_price] column is not one of
    the columns the merge drops, and reaches the written table. *)
Lemma merge_strips_prediction_cols_counterexample :
  exists sm t,
    add_daily_predictions pred_daily (mk_store (Some scenario_a_base) None)
      = (Ok sm, mk_store (Some scenario_a_base) (Some t)) /\
    In "predicted_price"%string (columns t).
Proof.
  do 2 eexists; split; [reflexivity|]; simpl; tauto.
Qed.









(** C7 — reset: with a base table [b] on storage, [reset_accumulated_data]
    writes the base table as read, returns its row count, and reading the
    accumulated file afterwards gives the same table as reading the base
    file; for every store, resetting twice in a row ends in the same store,
    with the same result, as resetting once. *)
Theorem reset_copies_base_idempotent (s : store) (b : table) :
  base_file s = Some b ->
  reset_accumulated_data s = (Ok (len b), mk_store (Some b) (Some (csv_read b))) /\
  fst (read_csv AccPath (snd (reset_accumulated_data s))) = fst (read_csv BasePath s) /\
  (reset_accumulated_data ;;; reset_accumulated_data) s = reset_accumulated_data s.
Proof.
  destruct s as [b0 a0]; cbn [base_file]; intros ->; split; [|split].
  - change (reset_accumulated_data (mk_store (Some b) a0))
      with (Ok (len (csv_read b)), mk_store (Some b) (Some (csv_read b))).
    now rewrite len_csv_read.
  - change (Ok (csv_read (csv_read b)) = Ok (csv_read b)).
    now rewrite csv_read_idem.
  - reflexivity.
Qed.

(** A table with a repeated id. *)
Definition dup_table : table :=
  mk_table ["id"%string; "price"%string] [row_of 7 1000; row_of 7 1100].

Lemma reset_copies_base_idempotent_witness :
  reset_accumulated_data (mk_store (Some scenario_a_base) (Some dup_table))
    = (Ok (len scenario_a_base),
       mk_store (Some scenario_a_base) (Some (csv_read scenario_a_base))) /\
  fst (read_csv AccPath (snd (reset_accumulated_data
                               (mk_store (Some scenario_a_base) (Some dup_table)))))
    = fst (read_csv BasePath (mk_store (Some scenario_a_base) (Some dup_table))) /\
  (reset_accumulated_data ;;; reset_accumulated_data)
    (mk_store (Some scenario_a_base) (Some dup_table))
  = reset_accumulated_data (mk_store (Some scenario_a_base) (Some dup_table)).
Proof.
  apply (reset_copies_base_idempotent
           (mk_store (Some scenario_a_base) (Some dup_table)) scenario_a_base).
  reflexivity.
Defined.

(** C8 (amended) — disjoint ids: when the loaded table has pairwise distinct
    ids and the [k] incoming records have an [id] column with pairwise
    distinct ids none of which is in the loaded table, a completed merge
    reports [final_size] = previous size + [k]. *)
Theorem merge_disjoint_ids_size (d : table) (s s' : store) (sm : merge_summary)
    (a : table) :
  add_daily_predictions d s = (Ok sm, s') ->
  loaded s = Some a ->
  str_mem "id" (columns d) = true ->
  NoDup (map key (rows a)) ->
  NoDup (map key (rows d)) ->
  (forall r, In r (rows d) -> ~ In (key r) (map key (rows a))) ->
  final_size sm = len a + Z.of_nat (List.length (rows d)).
Proof.
  intros H Ha Hid Hna Hnd Hdisj.
  apply add_daily_predictions_ok in H as [a' [Ha' [_ [_ ->]]]].
  rewrite Ha in Ha'; inversion Ha'; subst a'; cbn [final_size].
  assert (Hk : map key (rows (daily_training d)) = map key (rows d)).
  { rewrite rows_daily_training, map_map; apply map_ext; intro r.
    now apply key_strip_row. }
  rewrite (merged_id a d (str_mem_concat_id a d Hid)); unfold len; cbn [rows].
  unfold concat; cbn [rows].
  rewrite dedup_last_id.
  - rewrite length_app, rows_daily_training, length_map; lia.
  - rewrite map_app, Hk; apply NoDup_app; auto.
    intros k Hk1 Hk2; apply in_map_iff in Hk2 as [r [<- Hr]].
    exact (Hdisj r Hr Hk1).
Qed.

Definition new_ids_daily : table :=
  mk_table ["id"%string; "price"%string] [row_of 5 1500; row_of 6 1600].

Lemma merge_disjoint_ids_size_witness :
  final_size (mk_summary 2 0 4) = len scenario_a_base + 2.
Proof.
  apply (merge_disjoint_ids_size new_ids_daily (mk_store (Some scenario_a_base) None)
           (snd (add_daily_predictions new_ids_daily (mk_store (Some scenario_a_base) None)))
           (mk_summary 2 0 4) scenario_a_base); try reflexivity.
  - simpl; repeat constructor; simpl; intuition discriminate.
  - simpl; repeat constructor; simpl; intuition discriminate.
  - simpl; intros r [<-|[<-|[]]]; simpl; intuition discriminate.
Defined.

Definition repeated_id_daily : table :=
  mk_table ["id"%string; "price"%string] [row_of 5 1500; row_of 5 1600].

(** C8 as stated fails: two incoming records share id 5, which the
    one-row accumulated table does not hold; the merge keeps one of them,
    so the size grows by 1, not by 2. *)
Lemma merge_disjoint_ids_size_counterexample :
  exists sm s',
    add_daily_predictions repeated_id_daily
      (mk_store (Some scenario_a_base) (Some (mk_table ["id"%string; "price"%string] [row_of 1 1000])))
      = (Ok sm, s') /\
    final_size sm = 2 /\ final_size sm <> 1 + 2.
Proof. do 2 eexists; split; [reflexivity|]; simpl; split; [reflexivity|discriminate]. Qed.

(** C9 — the loaded table keeps its prediction columns: a completed merge
    writes a [price_preds] or [price_diff] column exactly when the loaded
    accumulated (or base) table has one, and a loaded row whose id no later
    loaded row and no incoming row carries is written unchanged, its
    prediction values included. *)
Theorem merge_keeps_loaded_prediction_cols (d : table) (s s' : store)
    (sm : merge_summary) (a : table) (l1 l2 : list row) (r : row) :
  add_daily_predictions d s = (Ok sm, s') ->
  loaded s = Some a ->
  rows a = l1 ++ r :: l2 ->
  ~ In (key r) (map key l2) ->
  ~ In (key r) (map key (rows (daily_training d))) ->
  exists t, acc_file s' = Some t /\ In r (rows t) /\
    forall c, In c prediction_cols -> (In c (columns t) <-> In c (columns a)).
Proof.
  intros H Ha Hr Hn2 Hnd.
  apply add_daily_predictions_ok in H as [a' [Ha' [_ [-> _]]]].
  rewrite Ha in Ha'; inversion Ha'; subst a'.
  exists (merged a d); split; [reflexivity|]; split.
  - unfold merged.
    destruct (rows_dedup_frame_cases (concat a (daily_training d))) as [E|[_ E]];
      rewrite E; unfold concat; cbn [rows]; rewrite Hr, <- app_assoc; simpl.
    + apply dedup_last_keeps; rewrite map_app, in_app_iff; tauto.
    + apply in_or_app; right; now left.
  - intros c Hc; now apply merged_pred_cols.
Qed.

Definition pred_base : table :=
  mk_table ["id"%string; "price"%string; "price_preds"%string]
    [row_of 1 1000 ++ [("price_preds"%string, Some (VInt 990))]].

Lemma merge_keeps_loaded_prediction_cols_witness :
  exists t,
    acc_file (snd (add_daily_predictions pred_daily (mk_store (Some pred_base) None)))
      = Some t /\
    In (row_of 1 1000 ++ [("price_preds"%string, Some (VInt 990))]) (rows t) /\
    forall c, In c prediction_cols -> (In c (columns t) <-> In c (columns pred_base)).
Proof.
  apply (merge_keeps_loaded_prediction_cols pred_daily (mk_store (Some pred_base) None)
           (snd (add_daily_predictions pred_daily (mk_store (Some pred_base) None)))
           (mk_summary 1 0 2) pred_base [] []);
    try reflexivity; simpl; intuition discriminate.
Defined.

(** C10 — stats need a non-empty base: when the accumulated table exists,
    [get_training_stats] returns a stats value only if the base table exists
    and has rows (and then it does); with an empty base table the division
    raises [ZeroDivisionError], which is caught, and the caller gets [None]. *)
Theorem stats_needs_nonempty_base (s : store) (a : table) :
  acc_file s = Some a ->
  (forall st, fst (get_training_stats s) = Ok (Some st) ->
     exists b, base_file s = Some b /\ len b <> 0) /\
  (forall b, base_file s = Some b -> len b = 0 ->
     py_div (len a - len b) (len b) s = (Raise ZeroDivisionError, s) /\
     get_training_stats s = (Ok None, s)) /\
  (forall b, base_file s = Some b -> len b <> 0 ->
     exists st, get_training_stats s = (Ok (Some st), s)).
Proof.
  intro Ha; rewrite (stats_unfold s a Ha); split; [|split].
  - destruct (base_file s) as [b|]; simpl; [|discriminate].
    destruct (Z.eqb_spec (len b) 0); simpl; [discriminate|eauto].
  - intros b -> Hb; unfold py_div; rewrite Hb; simpl; auto.
  - intros b -> Hb; apply Z.eqb_neq in Hb; rewrite Hb; eauto.
Qed.

Definition empty_base : table := mk_table ["id"%string; "price"%string] [].

Lemma stats_needs_nonempty_base_witness :
  get_training_stats (mk_store (Some empty_base) (Some scenario_a_base))
    = (Ok None, mk_store (Some empty_base) (Some scenario_a_base)) /\
  exists st, get_training_stats (mk_store (Some scenario_a_base) (Some scenario_a_base))
             = (Ok (Some st), mk_store (Some scenario_a_base) (Some scenario_a_base)).
Proof.
  destruct (stats_needs_nonempty_base (mk_store (Some empty_base) (Some scenario_a_base))
              scenario_a_base eq_refl) as [_ [H _]].
  destruct (stats_needs_nonempty_base (mk_store (Some scenario_a_base) (Some scenario_a_base))
              scenario_a_base eq_refl) as [_ [_ H']].
  split; [apply (H empty_base); reflexivity|].
  apply (H' scenario_a_base); [reflexivity|discriminate].
Defined.

(** ** Further properties of the accumulator *)

(** [r]'s id occurs in none of the rows [m]. *)
Definition not_in_keys (m : list row) (r : row) : bool :=
  negb (existsb (fun r' => cell_eqb (key r) (key r')) m).

Lemma dedup_last_app (l m : list row) :
  dedup_last (l ++ m) = filter (not_in_keys m) (dedup_last l) ++ dedup_last m.
Proof.
  induction l as [|x l IH]; simpl.
  - reflexivity.
  - rewrite existsb_app, IH.
    destruct (existsb (fun r' => cell_eqb (key x) (key r')) l) eqn:El; simpl; auto.
    destruct (existsb (fun r' => cell_eqb (key x) (key r')) m) eqn:Em; simpl;
      replace (not_in_keys m x) with (negb (existsb (fun r' => cell_eqb (key x) (key r')) m))
        by reflexivity; rewrite Em; reflexivity.
Qed.

Lemma dedup_last_keys_complete (m : list row) (k : cell) :
  In k (map key m) -> In k (map key (dedup_last m)).
Proof.
  induction m as [|x m IH]; simpl; [tauto|].
  destruct (existsb _ m) eqn:E; intros [<-|H]; simpl; auto.
  apply existsb_key_iff in E; auto.
Qed.






(** The rows a deduplication of the concatenation keeps, when the loaded
    table has distinct ids. *)
Lemma dedup_concat_rows (a d : table) :
  NoDup (map key (rows a)) ->
  dedup_last (rows (concat a (daily_training d))) =
  filter (not_in_keys (rows (daily_training d))) (rows a) ++
  dedup_last (rows (daily_training d)).
Proof.
  intro H; unfold concat; cbn [rows]; rewrite dedup_last_app, dedup_last_id; auto.
Qed.

(** X2 — an empty incoming frame: a completed merge of a frame with no
    rows into a loaded table with distinct ids writes the loaded rows
    unchanged and reports 0 added rows, 0 duplicates removed and the loaded
    size as final size. *)
Theorem merge_empty_frame (d : table) (s s' : store) (sm : merge_summary) (a : table) :
  add_daily_predictions d s = (Ok sm, s') -> loaded s = Some a ->
  rows d = [] -> NoDup (map key (rows a)) ->
  exists t, acc_file s' = Some t /\ rows t = rows a /\
    sm = mk_summary 0 0 (len a).
Proof.
  intros H Ha Hd Hu; apply add_daily_predictions_ok in H as [a' [Ha' [_ [-> ->]]]].
  rewrite Ha in Ha'; inversion Ha'; subst a'.
  assert (Hr : rows (merged a d) = rows a).
  { unfold merged.
    destruct (rows_dedup_frame_cases (concat a (daily_training d))) as [E|[_ E]];
      rewrite E; unfold concat; cbn [rows]; rewrite rows_daily_training, Hd; simpl;
      rewrite app_nil_r; [now apply dedup_last_id|reflexivity]. }
  exists (merged a d); split; [reflexivity|split; [exact Hr|]].
  unfold len; rewrite Hr, rows_daily_training, Hd; unfold concat; cbn [rows].
  rewrite rows_daily_training, Hd, app_nil_r; simpl; f_equal; lia.
Qed.

Lemma merge_empty_frame_witness :
  exists t,
    acc_file (snd (add_daily_predictions empty_base (mk_store (Some scenario_a_base) None)))
      = Some t /\ rows t = rows scenario_a_base /\
    mk_summary 0 0 2 = mk_summary 0 0 (len scenario_a_base).
Proof.
  apply (merge_empty_frame empty_base (mk_store (Some scenario_a_base) None)
           (snd (add_daily_predictions empty_base (mk_store (Some scenario_a_base) None)))
           (mk_summary 0 0 2) scenario_a_base); try reflexivity.
  simpl; repeat constructor; simpl; intuition discriminate.
Defined.

Lemma length_filter_split {A} (p : A -> bool) (l : list A) :
  List.length l = (List.length (filter p l) + List.length (filter (fun x => negb (p x)) l))%nat.
Proof.
  induction l as [|x l IH]; simpl; auto.
  destruct (p x); simpl; lia.
Qed.

(** Dropping rows keeps the remaining ids distinct. *)
Lemma keys_unique_after_filter (rs : list row) (keep : row -> bool) :
  NoDup (map key rs) -> NoDup (map key (filter keep rs)).
Proof.
  induction rs as [|r rs IH]; [constructor|].
  cbn [map filter]; rewrite NoDup_cons_iff; intros [Hr Hrs].
  destruct (keep r); [|now apply IH].
  cbn [map]; apply NoDup_cons; [|now apply IH].
  intro Hk; apply Hr; apply in_map_iff in Hk as [y [Hy Hin]].
  rewrite <- Hy; apply in_map; exact (proj1 (proj1 (filter_In _ _ _) Hin)).
Qed.

(** X3 — size bounds: when the loaded table has distinct ids, a completed
    merge never shrinks it and grows it by at most the number of incoming
    rows: [len loaded <= final_size <= len loaded + added_rows]. *)
Theorem merge_size_bounds (d : table) (s s' : store) (sm : merge_summary) (a : table) :
  add_daily_predictions d s = (Ok sm, s') -> loaded s = Some a ->
  NoDup (map key (rows a)) ->
  len a <= final_size sm <= len a + added_rows sm.
Proof.
  intros H Ha Hu; apply add_daily_predictions_ok in H as [a' [Ha' [_ [_ ->]]]].
  rewrite Ha in Ha'; inversion Ha'; subst a'; cbn [final_size added_rows]; unfold len.
  set (D := rows (daily_training d)).
  assert (Hup : (List.length (rows (merged a d)) <= List.length (rows a) + List.length D)%nat).
  { pose proof (dedup_frame_length (concat a (daily_training d))) as Hl.
    change (rows (concat a (daily_training d))) with (rows a ++ D) in Hl.
    rewrite length_app in Hl; exact Hl. }
  assert (Hlo : (List.length (rows a) <= List.length (rows (merged a d)))%nat).
  { unfold merged.
    destruct (rows_dedup_frame_cases (concat a (daily_training d))) as [E|[_ E]]; rewrite E.
    - rewrite dedup_concat_rows, length_app by exact Hu; fold D.
      rewrite (length_filter_split (not_in_keys D) (rows a)).
      apply Nat.add_le_mono_l.
      rewrite <- (length_map key (filter _ (rows a))), <- (length_map key (dedup_last D)).
      apply NoDup_incl_length; [now apply keys_unique_after_filter|].
      intros k Hk; apply in_map_iff in Hk as [r [<- Hr]].
      apply filter_In in Hr as [_ Hr]; apply Bool.negb_true_iff, Bool.negb_false_iff in Hr.
      apply dedup_last_keys_complete, existsb_key_iff; exact Hr.
    - unfold concat; cbn [rows]; rewrite length_app; lia. }
  split; lia.
Qed.

Lemma merge_size_bounds_witness :
  len scenario_a_base <= final_size (mk_summary 2 1 3)
    <= len scenario_a_base + added_rows (mk_summary 2 1 3).
Proof.
  apply (merge_size_bounds scenario_a_daily (mk_store (Some scenario_a_base) None)
           (snd (add_daily_predictions scenario_a_daily (mk_store (Some scenario_a_base) None)))
           (mk_summary 2 1 3) scenario_a_base); try reflexivity.
  simpl; repeat constructor; simpl; intuition discriminate.
Defined.

Lemma dedup_last_same_key (m : list row) (r : row) :
  (forall x, In x m -> key x = key r) -> dedup_last (m ++ [r]) = [r].
Proof.
  induction m as [|x m IH]; intro H; simpl.
  - reflexivity.
  - replace (existsb _ (m ++ [r])) with true.
    + apply IH; intros y Hy; apply H; now right.
    + symmetry; apply existsb_key_iff; rewrite (H x (or_introl eq_refl)).
      apply in_map, in_or_app; right; now left.
Qed.

(** X4 — incoming rows without ids: when the incoming frame has no [id]
    column, its rows all get a missing id, which deduplication treats as
    one key; a completed merge into a loaded table that has an [id] column
    and whose rows all have distinct, present ids writes the loaded rows
    followed by the last incoming row alone (training columns only), so
    the size grows by one whatever the number of incoming rows. *)
Theorem merge_rows_without_id_collapse (d : table) (s s' : store) (sm : merge_summary)
    (a : table) (l : list row) (r : row) :
  add_daily_predictions d s = (Ok sm, s') -> loaded s = Some a ->
  str_mem "id" (columns a) = true ->
  NoDup (map key (rows a)) -> (forall x, In x (rows a) -> key x <> None) ->
  str_mem "id" (columns d) = false -> rows d = l ++ [r] ->
  exists t, acc_file s' = Some t /\ rows t = rows a ++ [strip_row d r] /\
    final_size sm = len a + 1.
Proof.
  intros H Ha Hia Hu Hk Hid Hd.
  apply add_daily_predictions_ok in H as [a' [Ha' [_ [-> ->]]]].
  rewrite Ha in Ha'; inversion Ha'; subst a'.
  assert (Hc : str_mem "id" (columns (concat a (daily_training d))) = true)
    by (rewrite str_mem_concat_daily, Hia; reflexivity).
  assert (Hr : rows (merged a d) = rows a ++ [strip_row d r]).
  { rewrite (merged_id a d Hc); cbn [rows].
    rewrite dedup_concat_rows by exact Hu.
    rewrite rows_daily_training, Hd, map_app; cbn [map].
    rewrite dedup_last_same_key.
    - f_equal; apply forallb_filter_id, forallb_forall; intros x Hx.
      unfold not_in_keys; apply Bool.negb_true_iff.
      apply Bool.not_true_iff_false; intro He; apply existsb_key_iff in He.
      apply in_map_iff in He as [y [Hy Hiny]]; rewrite in_app_iff in Hiny.
      apply (Hk x Hx); rewrite <- Hy.
      destruct Hiny as [Hiny|[<-|[]]];
        [apply in_map_iff in Hiny as [z [<- _]]|]; apply key_strip_row_no_id; exact Hid.
    - intros x Hx; apply in_map_iff in Hx as [z [<- _]].
      now rewrite !key_strip_row_no_id. }
  exists (merged a d); split; [reflexivity|split; [exact Hr|]].
  cbn [final_size]; unfold len; rewrite Hr, length_app; simpl; lia.
Qed.

Definition no_id_two_rows : table :=
  mk_table ["price"%string]
    [[("price"%string, Some (VInt 800))]; [("price"%string, Some (VInt 850))]].

Lemma merge_rows_without_id_collapse_witness :
  exists t,
    acc_file (snd (add_daily_predictions no_id_two_rows (mk_store (Some scenario_a_base) None)))
      = Some t /\
    rows t = rows scenario_a_base ++
             [strip_row no_id_two_rows [("price"%string, Some (VInt 850))]] /\
    final_size (mk_summary 2 1 3) = len scenario_a_base + 1.
Proof.
  apply (merge_rows_without_id_collapse no_id_two_rows (mk_store (Some scenario_a_base) None)
           (snd (add_daily_predictions no_id_two_rows (mk_store (Some scenario_a_base) None)))
           (mk_summary 2 1 3) scenario_a_base [[("price"%string, Some (VInt 800))]]);
    try reflexivity.
  - simpl; repeat constructor; simpl; intuition discriminate.
  - simpl; intros x [<-|[<-|[]]]; discriminate.
Defined.

(** X5 — provenance of the written rows: every row of the table a
    completed merge writes is a row of the loaded table or an incoming row
    with its prediction columns removed; the merge invents no row and
    alters none. *)
Theorem merge_row_provenance (d : table) (s s' : store) (sm : merge_summary)
    (a t : table) :
  add_daily_predictions d s = (Ok sm, s') -> loaded s = Some a ->
  acc_file s' = Some t ->
  forall x, In x (rows t) ->
    In x (rows a) \/ exists r, In r (rows d) /\ x = strip_row d r.
Proof.
  intros H Ha Ht x Hx; apply add_daily_predictions_ok in H as [a' [Ha' [_ [-> _]]]].
  rewrite Ha in Ha'; inversion Ha'; subst a'; inversion Ht; subst t.
  unfold merged in Hx; apply dedup_frame_incl in Hx; unfold concat in Hx; cbn [rows] in Hx.
  apply in_app_or in Hx as [Hx|Hx]; [now left|right].
  rewrite rows_daily_training in Hx; apply in_map_iff in Hx as [r [<- Hr]]; eauto.
Qed.

Lemma merge_row_provenance_witness :
  In (row_of 2 1250) (rows scenario_a_base) \/
  exists r, In r (rows scenario_a_daily) /\ row_of 2 1250 = strip_row scenario_a_daily r.
Proof.
  apply (merge_row_provenance scenario_a_daily (mk_store (Some scenario_a_base) None)
           (snd (add_daily_predictions scenario_a_daily (mk_store (Some scenario_a_base) None)))
           (mk_summary 2 1 3) scenario_a_base
           (mk_table ["id"%string; "price"%string]
              [row_of 1 1000; row_of 2 1250; row_of 3 900])); try reflexivity.
  simpl; right; left; reflexivity.
Defined.

(** X6 — the written columns: after a completed merge, a column is in the
    written table exactly when it is a column of the loaded table or a
    column of the incoming frame other than [price_preds] and
    [price_diff]. *)
Theorem merge_columns (d : table) (s s' : store) (sm : merge_summary) (a t : table) :
  add_daily_predictions d s = (Ok sm, s') -> loaded s = Some a ->
  acc_file s' = Some t ->
  forall c, In c (columns t) <->
    In c (columns a) \/ (In c (columns d) /\ ~ In c prediction_cols).
Proof.
  intros H Ha Ht c; apply add_daily_predictions_ok in H as [a' [Ha' [_ [-> _]]]].
  rewrite Ha in Ha'; inversion Ha'; subst a'; inversion Ht; subst t.
  apply columns_merged_iff.
Qed.

Lemma merge_columns_witness :
  In "price"%string (columns scenario_a_base) \/
  (In "price"%string (columns scenario_a_daily) /\ ~ In "price"%string prediction_cols).
Proof.
  apply (merge_columns scenario_a_daily (mk_store (Some scenario_a_base) None)
           (snd (add_daily_predictions scenario_a_daily (mk_store (Some scenario_a_base) None)))
           (mk_summary 2 1 3) scenario_a_base
           (mk_table ["id"%string; "price"%string]
              [row_of 1 1000; row_of 2 1250; row_of 3 900])); try reflexivity.
  simpl; right; left; reflexivity.
Defined.

(** X7 — the base file is read-only: no call of [add_daily_predictions],
    [reset_accumulated_data] or [get_training_stats], completed or not,
    changes the base file. *)
Theorem base_file_never_written :
  (forall d s, base_file (snd (add_daily_predictions d s)) = base_file s) /\
  (forall s, base_file (snd (reset_accumulated_data s)) = base_file s) /\
  (forall s, base_file (snd (get_training_stats s)) = base_file s).
Proof.
  split; [|split].
  - intros d s; rewrite add_daily_predictions_eq.
    destruct (loaded s); [destruct (_ || _)|]; reflexivity.
  - intros [b a]; destruct b; reflexivity.
  - intro s; destruct (get_training_stats_no_write s) as [o ->]; reflexivity.
Qed.

(** X8 — stats right after a reset: with a non-empty base table [b],
    resetting and then asking for the stats reports base and accumulated
    size [len b], growth 0 and growth percentage 0. *)
Theorem reset_then_stats (s : store) (b : table) :
  base_file s = Some b -> len b <> 0 ->
  exists st,
    (reset_accumulated_data ;;; get_training_stats) s
      = (Ok (Some st), mk_store (Some b) (Some (csv_read b))) /\
    base_size st = len b /\ accumulated_size st = len b /\ growth st = 0 /\
    (growth_percentage st == 0)%Q.
Proof.
  destruct s as [b0 a0]; cbn [base_file]; intros -> Hb.
  change ((reset_accumulated_data ;;; get_training_stats) (mk_store (Some b) a0))
    with (get_training_stats (mk_store (Some b) (Some (csv_read b)))).
  rewrite (stats_unfold (mk_store (Some b) (Some (csv_read b))) (csv_read b) eq_refl);
    cbn [base_file]; rewrite len_csv_read.
  apply Z.eqb_neq in Hb; rewrite Hb.
  eexists; split; [reflexivity|]; cbn [base_size accumulated_size growth growth_percentage].
  repeat split; try lia.
  rewrite Z.sub_diag; unfold Qeq, Qdiv, Qmult; simpl; lia.
Qed.

Lemma reset_then_stats_witness :
  exists st,
    (reset_accumulated_data ;;; get_training_stats)
      (mk_store (Some scenario_a_base) (Some dup_table))
      = (Ok (Some st), mk_store (Some scenario_a_base) (Some (csv_read scenario_a_base))) /\
    base_size st = len scenario_a_base /\ accumulated_size st = len scenario_a_base /\
    growth st = 0 /\ (growth_percentage st == 0)%Q.
Proof.
  apply (reset_then_stats (mk_store (Some scenario_a_base) (Some dup_table)));
    [reflexivity|discriminate].
Defined.

(** X9 — stats after a merge: after a completed merge, with a non-empty
    base table [b], the stats report the merge's [final_size] as the
    accumulated size and [final_size - len b] as the growth. *)
Theorem merge_then_stats (d : table) (s s' : store) (sm : merge_summary) (b : table) :
  add_daily_predictions d s = (Ok sm, s') -> base_file s = Some b -> len b <> 0 ->
  exists st, get_training_stats s' = (Ok (Some st), s') /\
    base_size st = len b /\ accumulated_size st = final_size sm /\
    growth st = final_size sm - len b.
Proof.
  intros H Hb Hn; apply add_daily_predictions_ok in H as [a [_ [_ [-> ->]]]].
  rewrite (stats_unfold (mk_store (base_file s) (Some (merged a d))) (merged a d) eq_refl);
    cbn [base_file]; rewrite Hb.
  apply Z.eqb_neq in Hn; rewrite Hn.
  eexists; split; [reflexivity|]; cbn; repeat split.
Qed.

Lemma merge_then_stats_witness :
  exists st,
    get_training_stats (snd (add_daily_predictions scenario_a_daily
                               (mk_store (Some scenario_a_base) None)))
    = (Ok (Some st), snd (add_daily_predictions scenario_a_daily
                            (mk_store (Some scenario_a_base) None))) /\
    base_size st = len scenario_a_base /\ accumulated_size st = final_size (mk_summary 2 1 3) /\
    growth st = final_size (mk_summary 2 1 3) - len scenario_a_base.
Proof.
  apply (merge_then_stats scenario_a_daily (mk_store (Some scenario_a_base) None));
    [reflexivity|reflexivity|discriminate].
Defined.

(** ** The training Lambda's loader (deployment/lambda/lambda_training.py) *)

Module TrainingLambda.

(** The exceptions [download_training_data] lets through: the
    [FileNotFoundError] of reading the legacy file [training_load.csv] and
    the [KeyError] of [drop_duplicates]. *)
Inductive error : Type :=
| LegacyFileNotFoundError
| KeyError (k : string).

(** The loading part of [download_training_data(use_accumulated)], on the
    store shared with the accumulator.  [s3_object] is the file downloaded
    from S3 ([None]: the download or its [pd.read_csv] raised, which the
    bare [except:] catches); [legacy] is the local file
    [training_load.csv].  Every file is read with [pd.read_csv]. *)
Definition load_training_df (use_accumulated : bool) (s3_object legacy : option table)
    (s : store) : error + table :=
  match use_accumulated, acc_file s with
  | true, Some a => inr (csv_read a)
  | _, _ =>
      match s3_object with
      | Some t => inr (csv_read t)
      | None =>
          match base_file s with
          | Some b => inr (csv_read b)
          | None =>
              match legacy with
              | Some t => inr (csv_read t)
              | None => inl LegacyFileNotFoundError
              end
          end
      end
  end.

(** [download_training_data]: load, then
    [df.drop_duplicates(subset=['id'], keep='last')].  The call to
    [monitor.log_data_quality_metrics] catches its own exceptions and does
    not touch the frame; the outer [except] re-raises. *)
Definition download_training_data (use_accumulated : bool) (s3_object legacy : option table)
    (s : store) : error + table :=
  match load_training_df use_accumulated s3_object legacy s with
  | inl e => inl e
  | inr df =>
      match drop_duplicates_frame df with
      | Some t => inr t
      | None => inl (KeyError "id")
      end
  end.

(** X10 — the training Lambda reads what the accumulator wrote: after a
    completed merge of a frame with an [id] column, if every record the
    merge wrote has an integer id, [download_training_data(True)] returns
    the accumulated file as [pd.read_csv] reads it; its own deduplication
    removes nothing. *)
Theorem download_after_merge (d : table) (s s' : store) (sm : merge_summary)
    (s3_object legacy : option table) :
  add_daily_predictions d s = (Ok sm, s') ->
  str_mem "id" (columns d) = true ->
  exists t, acc_file s' = Some t /\
    ((forall r, In r (rows t) -> exists z, key r = Some (VInt z)) ->
     download_training_data true s3_object legacy s' = inr (csv_read t)).
Proof.
  intros H Hid; apply add_daily_predictions_ok in H as [a [_ [_ [-> _]]]].
  pose proof (str_mem_concat_id a d Hid) as Hc.
  assert (Hcm : str_mem "id" (columns (merged a d)) = true)
    by (unfold merged; rewrite columns_dedup_frame; exact Hc).
  exists (merged a d); split; [reflexivity|]; intro Hint.
  unfold download_training_data, load_training_df; cbn [acc_file].
  rewrite drop_duplicates_frame_eq, columns_csv_read, Hcm, orb_true_r.
  rewrite dedup_frame_nonnil by (rewrite columns_csv_read; exact (str_mem_nonnil _ _ Hcm)).
  rewrite dedup_last_id.
  - destruct (csv_read (merged a d)); reflexivity.
  - apply ids_unique_csv_read; auto; now apply merged_unique.
Qed.

Lemma download_after_merge_witness :
  exists t,
    acc_file (snd (add_daily_predictions scenario_a_daily (mk_store (Some scenario_a_base) None)))
      = Some t /\
    ((forall r, In r (rows t) -> exists z, key r = Some (VInt z)) ->
     download_training_data true None None
       (snd (add_daily_predictions scenario_a_daily (mk_store (Some scenario_a_base) None)))
     = inr (csv_read t)).
Proof.
  apply (download_after_merge scenario_a_daily (mk_store (Some scenario_a_base) None)
           _ (mk_summary 2 1 3)); reflexivity.
Defined.

(** X11 — the loaded training data has distinct ids: whenever
    [download_training_data] returns a table with at least one column,
    whatever source it came from, its ids are distinct, and if it has a
    row it has an [id] column.  (A frame with no row or no column is
    returned by [drop_duplicates] unchanged.) *)
Theorem download_ids_unique (u : bool) (s3_object legacy : option table) (s : store)
    (t : table) :
  download_training_data u s3_object legacy s = inr t ->
  columns t <> [] ->
  ids_unique t /\ (rows t <> [] -> str_mem "id" (columns t) = true).
Proof.
  unfold download_training_data.
  destruct (load_training_df u s3_object legacy s) as [e|df]; [discriminate|].
  rewrite drop_duplicates_frame_eq.
  destruct (empty df || str_mem "id" (columns df)) eqn:E; [|discriminate].
  intros H Hc; inversion H; subst t; clear H.
  rewrite columns_dedup_frame in Hc.
  rewrite (dedup_frame_nonnil df Hc); cbn [columns rows]; split.
  - apply dedup_last_nodup.
  - intro Hr; apply orb_true_iff in E as [E|E]; [|exact E].
    exfalso; unfold empty in E; apply orb_true_iff in E as [E|E];
      apply Nat.eqb_eq, length_zero_iff_nil in E; [exact (Hc E)|].
    rewrite E in Hr; exact (Hr eq_refl).
Qed.

Lemma download_ids_unique_witness :
  ids_unique (mk_table ["id"%string; "price"%string] [row_of 7 1100]) /\
  (rows (mk_table ["id"%string; "price"%string] [row_of 7 1100]) <> [] ->
   str_mem "id" (columns (mk_table ["id"%string; "price"%string] [row_of 7 1100])) = true).
Proof.
  apply (download_ids_unique false (Some dup_table) None (mk_store None None)).
  - reflexivity.
  - discriminate.
Defined.

End TrainingLambda.
